(** * Offline rate cache and network-status hook of the currency converter

    Shallow embedding of [src/src/utils/cacheManager.js]: the class
    [CacheManager] (localStorage persistence, lazy expiry, rate
    resolution) and the React hook [useNetworkStatus] with its event
    handlers.

    Modelling conventions.
    - JS numbers used as rates are IEEE binary64 values: the kernel's
      primitive [float], so [1 / x] and [y / x] are the very divisions
      the browser performs and truthiness of a number is
      "neither 0, -0 nor NaN".
    - Millisecond timestamps ([Date.now()], [parseInt] of the stored
      text) are integers far below 2^53, so they are kept as [Z]; a
      [parseInt] that finds no digits is [NaN], written [None].
    - [localStorage] is restricted to the three keys the code uses.  The
      text under the snapshot key is represented by what [JSON.parse]
      makes of it ([cache_text]).  Two failure modes of the browser's
      storage are modelled: storage that is inaccessible (every call
      throws, e.g. a SecurityError) and storage over its quota ([setItem]
      throws).
    - Console output is not modelled: it is invisible to callers.
    - [Date.now()] is one value [now] per operation. *)

From Stdlib Require Import ZArith Lia String Ascii List Bool Floats.
Import ListNotations.

(* ------------------------------------------------------------------ *)
(** ** JS values *)

(** Truthiness of a JS number: [0], [-0] and [NaN] are falsy. *)
Definition num_truthy (x : float) : bool :=
  negb (PrimFloat.is_nan x) && negb (PrimFloat.is_zero x).

(** A rate entry of the stored JSON, as [JSON.parse] gives it back:
    [JSON.stringify] writes non-finite numbers as [null]. *)
Inductive jrate : Type :=
| JNull
| JNum (x : float).

(** [JSON.parse(JSON.stringify(x))] for a number [x]: [JSON.stringify]
    writes [-0] as [0]. *)
Definition json_roundtrip_num (x : float) : jrate :=
  if PrimFloat.is_finite x then
    if PrimFloat.is_zero x then JNum 0 else JNum x
  else JNull.

(** The rates object: its own properties in insertion order.  A
    property read returns the last binding of the key, [None] standing
    for [undefined]. *)
Definition rates_obj := list (string * jrate).

Fixpoint prop (o : rates_obj) (k : string) : option jrate :=
  match o with
  | [] => None
  | (k', v) :: o' =>
      match prop o' k with
      | Some v' => Some v'
      | None => if String.eqb k k' then Some v else None
      end
  end.

(** Truthiness of [rates[k]]: [undefined] and [null] are falsy. *)
Definition rate_truthy (v : option jrate) : bool :=
  match v with
  | Some (JNum x) => num_truthy x
  | _ => false
  end.

(** The number JS uses when [rates[k]] is an operand of [/]; only ever
    applied to truthy entries ([+null] is 0, [+undefined] is NaN). *)
Definition rate_num (v : option jrate) : float :=
  match v with
  | Some (JNum x) => x
  | Some JNull => 0%float
  | None => PrimFloat.nan
  end.

(** [Object.keys(rates).length]. *)
Fixpoint count_keys (o : rates_obj) : nat :=
  match o with
  | [] => 0
  | (k, _) :: o' =>
      if existsb (fun kv => String.eqb k (fst kv)) o'
      then count_keys o' else S (count_keys o')
  end.

(** The object [JSON.parse] returns for the stored snapshot.  A field that
    is absent, or of another JSON type than the one the code writes, is
    [None].  [lastUpdate] is the ISO-8601 text of an instant; it is only
    displayed, and kept here as that instant. *)
Record cache_data : Type := mkCacheData {
  rates : option rates_obj;
  baseCurrency : option string;
  timestamp : option Z;
  lastUpdate : option Z
}.

(** The text stored under [CACHE_KEY], by the result of [JSON.parse]:
    - [CText c]: text of a JSON object (a truthy non-object JSON value is
      the record with every field [None]);
    - [CFalsy]: non-empty text of [null], [false], [0] or the empty string;
    - [CUnparsable t]: text on which [JSON.parse] throws. *)
Inductive cache_text : Type :=
| CText (c : cache_data)
| CFalsy
| CUnparsable (t : string).

(** [!!cachedData]: only the empty string is a falsy string. *)
Definition cache_text_truthy (v : option cache_text) : bool :=
  match v with
  | None => false
  | Some (CUnparsable t) => negb (String.eqb t EmptyString)
  | Some _ => true
  end.

Definition str_truthy (v : option string) : bool :=
  match v with
  | None => false
  | Some t => negb (String.eqb t EmptyString)
  end.

(* ------------------------------------------------------------------ *)
(** ** [parseInt] and [Number.prototype.toString] on integers *)

Definition is_js_ws (c : ascii) : bool :=
  match c with
  | " "%char | "009"%char | "010"%char | "011"%char | "012"%char
  | "013"%char => true
  | _ => false
  end.

Fixpoint skip_ws (s : string) : string :=
  match s with
  | String c s' => if is_js_ws c then skip_ws s' else s
  | EmptyString => EmptyString
  end.

(** Value of [c] as a digit in base [radix] (10 or 16). *)
Definition digit_val (radix : Z) (c : ascii) : option Z :=
  let n := Z.of_nat (nat_of_ascii c) in
  let d :=
    (if (48 <=? n) && (n <=? 57) then Some (n - 48)
     else if (97 <=? n) && (n <=? 102) then Some (n - 87)
     else if (65 <=? n) && (n <=? 70) then Some (n - 55)
     else None)%Z in
  match d with
  | Some v => if v <? radix then Some v else None
  | None => None
  end%Z.

(** Longest prefix of digits; [None] (NaN) when there is none. *)
Fixpoint digits_acc (radix acc : Z) (seen : bool) (s : string) : option Z :=
  match s with
  | EmptyString => if seen then Some acc else None
  | String c s' =>
      match digit_val radix c with
      | Some d => digits_acc radix (acc * radix + d)%Z true s'
      | None => if seen then Some acc else None
      end
  end.

Definition parse_unsigned (s : string) : option Z :=
  match s with
  | String "0" (String x s') =>
      if (x =? "x")%char || (x =? "X")%char then digits_acc 16 0 false s'
      else digits_acc 10 0 false s
  | _ => digits_acc 10 0 false s
  end.

(** [parseInt(s)] with no radix argument. *)
Definition parseInt (s : string) : option Z :=
  match skip_ws s with
  | String "-" s' => option_map Z.opp (parse_unsigned s')
  | String "+" s' => parse_unsigned s'
  | s' => parse_unsigned s'
  end.

Definition digit_char (d : Z) : ascii := ascii_of_nat (48 + Z.to_nat d).

Fixpoint digits_rev (fuel : nat) (n : Z) (acc : string) : string :=
  match fuel with
  | O => acc
  | S f =>
      let acc' := String (digit_char (n mod 10)) acc in
      if (n <? 10)%Z then acc' else digits_rev f (n / 10) acc'
  end.

(** [n.toString()] for an integer [n]. *)
Definition Z_toString (n : Z) : string :=
  let m := Z.abs n in
  let body := digits_rev (S (Z.to_nat (Z.log2 m))) m EmptyString in
  if (n <? 0)%Z then String "-" body else body.

(* ------------------------------------------------------------------ *)
(** ** localStorage and the effect monad *)

(** The keys of [CACHE_CONFIG] and the browser's storage.  [inaccessible]:
    every [localStorage] call throws; [over_quota]: [setItem] throws. *)
Record storage : Type := mkStorage {
  cache_item : option cache_text;      (* 'currencyRatesCache' *)
  last_update_item : option string;    (* 'lastCacheUpdate' *)
  offline_item : option string;        (* 'isOfflineMode' *)
  inaccessible : bool;
  over_quota : bool
}.

(** A storage call either returns or throws; a thrown error carries the
    storage as it was when the error was raised. *)
Inductive outcome (A : Type) : Type :=
| Ok (a : A) (s : storage)
| Thrown (s : storage).
Arguments Ok {A} a s.
Arguments Thrown {A} s.

Definition js (A : Type) : Type := storage -> outcome A.

Definition ret {A} (a : A) : js A := fun s => Ok a s.

Definition bind {A B} (m : js A) (k : A -> js B) : js B :=
  fun s => match m s with
           | Ok a s' => k a s'
           | Thrown s' => Thrown s'
           end.

(** [try { m } catch (error) { h }] *)
Definition try_catch {A} (m : js A) (h : js A) : js A :=
  fun s => match m s with
           | Ok a s' => Ok a s'
           | Thrown s' => h s'
           end.

(** [throw new Error(...)] *)
Definition throw {A} : js A := fun s => Thrown s.

Notation "x <- m ;; k" := (bind m (fun x => k))
  (at level 61, m at next level, right associativity).
Notation "m ;;; k" := (bind m (fun _ => k))
  (at level 61, right associativity).

Definition set_cache_item (v : option cache_text) (s : storage) : storage :=
  mkStorage v (last_update_item s) (offline_item s) (inaccessible s) (over_quota s).
Definition set_last_update_item (v : option string) (s : storage) : storage :=
  mkStorage (cache_item s) v (offline_item s) (inaccessible s) (over_quota s).
Definition set_offline_item (v : option string) (s : storage) : storage :=
  mkStorage (cache_item s) (last_update_item s) v (inaccessible s) (over_quota s).

Definition read {A} (f : storage -> A) : js A :=
  fun s => if inaccessible s then Thrown s else Ok (f s) s.

Definition remove (f : storage -> storage) : js unit :=
  fun s => if inaccessible s then Thrown s else Ok tt (f s).

Definition write (f : storage -> storage) : js unit :=
  fun s => if inaccessible s || over_quota s then Thrown s else Ok tt (f s).

Module localStorage.
Definition getItem_cache : js (option cache_text) := read cache_item.
Definition getItem_lastUpdate : js (option string) := read last_update_item.
Definition getItem_offline : js (option string) := read offline_item.
Definition setItem_cache (v : cache_text) : js unit :=
  write (set_cache_item (Some v)).
Definition setItem_lastUpdate (v : string) : js unit :=
  write (set_last_update_item (Some v)).
Definition setItem_offline (v : string) : js unit :=
  write (set_offline_item (Some v)).
Definition removeItem_cache : js unit := remove (set_cache_item None).
Definition removeItem_lastUpdate : js unit :=
  remove (set_last_update_item None).
Definition removeItem_offline : js unit := remove (set_offline_item None).
End localStorage.

(** [JSON.parse(cachedData)]; [None] is a falsy result ([null] ...). *)
Definition JSON_parse (t : cache_text) : js (option cache_data) :=
  fun s => match t with
           | CText c => Ok (Some c) s
           | CFalsy => Ok None s
           | CUnparsable _ => Thrown s
           end.

(* ------------------------------------------------------------------ *)
(** ** CacheManager *)

Module CacheManager.
Import localStorage.

(** [CACHE_EXPIRY_HOURS * 60 * 60 * 1000] *)
Definition maxAge : Z := 24 * 60 * 60 * 1000.

(** [Date.now() - parseInt(lastUpdate) > maxAge]; with [NaN] the
    comparison is false. *)
Definition age_exceeds (now : Z) (lastUpdate : option string) : bool :=
  match option_map parseInt lastUpdate with
  | Some (Some t) => (now - t >? maxAge)%Z
  | _ => false
  end.

Definition saveRatesToCache (now : Z) (ratesData : list (string * float))
    (baseCurrency : string) : js unit :=
  try_catch
    (let cacheData :=
       {| rates := Some (map (fun kv => (fst kv, json_roundtrip_num (snd kv)))
                            ratesData);
          baseCurrency := Some baseCurrency;
          timestamp := Some now;
          lastUpdate := Some now |} in
     setItem_cache (CText cacheData) ;;;
     setItem_lastUpdate (Z_toString now))
    (ret tt).

Definition clearCache : js unit :=
  try_catch
    (removeItem_cache ;;; removeItem_lastUpdate ;;; removeItem_offline)
    (ret tt).

Definition getCachedRates (now : Z) : js (option cache_data) :=
  try_catch
    (cachedData <- getItem_cache ;;
     lastUpdate <- getItem_lastUpdate ;;
     if negb (cache_text_truthy cachedData) || negb (str_truthy lastUpdate)
     then ret None
     else
       match cachedData with
       | None => ret None
       | Some txt =>
           cache <- JSON_parse txt ;;
           if age_exceeds now lastUpdate
           then clearCache ;;; ret None
           else ret cache
       end)
    (ret None).

(** [cache.baseCurrency === c] *)
Definition base_is (cache : cache_data) (c : string) : bool :=
  match baseCurrency cache with
  | Some b => String.eqb b c
  | None => false
  end.

(** The resolution cascade of [getCachedRate] on a loaded snapshot. *)
Definition resolve (cache : option cache_data) (fromCurrency toCurrency : string)
    : option float :=
  match cache with
  | None => None
  | Some c =>
      match rates c with
      | None => None
      | Some r =>
          if base_is c fromCurrency && rate_truthy (prop r toCurrency) then
            Some (rate_num (prop r toCurrency))
          else if base_is c toCurrency && rate_truthy (prop r fromCurrency) then
            Some (1 / rate_num (prop r fromCurrency))%float
          else if rate_truthy (prop r fromCurrency)
                  && rate_truthy (prop r toCurrency) then
            Some (rate_num (prop r toCurrency) / rate_num (prop r fromCurrency))%float
          else None
      end
  end.

Definition getCachedRate (now : Z) (fromCurrency toCurrency : string)
    : js (option float) :=
  cache <- getCachedRates now ;;
  ret (resolve cache fromCurrency toCurrency).

Definition hasRate (now : Z) (fromCurrency toCurrency : string) : js bool :=
  r <- getCachedRate now fromCurrency toCurrency ;;
  ret (match r with Some _ => true | None => false end).

(** The object [getCacheInfo] returns.  [info_lastUpdate] is the
    displayed date: [None] for [null], [Some None] for an invalid date. *)
Record cache_info : Type := mkCacheInfo {
  hasCache : bool;
  info_lastUpdate : option (option Z);
  info_baseCurrency : option string;
  rateCount : nat;
  isExpired : bool
}.

(** The code reads the clock twice: [now] inside [getCachedRates], then
    [now'] for [isExpired]. *)
Definition getCacheInfo (now now' : Z) : js cache_info :=
  lastUpdate <- getItem_lastUpdate ;;
  cache <- getCachedRates now ;;
  ret {| hasCache := match cache with Some _ => true | None => false end;
         info_lastUpdate :=
           if str_truthy lastUpdate then option_map parseInt lastUpdate
           else None;
         info_baseCurrency :=
           match cache with
           | Some c =>
               match baseCurrency c with
               | Some b => if String.eqb b EmptyString then None else Some b
               | None => None
               end
           | None => None
           end;
         rateCount :=
           match cache with
           | Some c => match rates c with
                       | Some r => count_keys r
                       | None => 0
                       end
           | None => 0
           end;
         isExpired :=
           match cache with
           | Some _ => age_exceeds now' lastUpdate
           | None => true
           end |}.

Definition setOfflineStatus (isOffline : bool) : js unit :=
  try_catch (setItem_offline (if isOffline then "true" else "false")) (ret tt).

Definition getOfflineStatus : js bool :=
  try_catch
    (status <- getItem_offline ;;
     ret (match status with
          | Some t => String.eqb t "true"
          | None => false
          end))
    (ret false).

(** The answer of [fetch(API_URL)] in [fetchAndCacheAllRates]: the
    promise rejects, or a response with its [ok] flag and the body as
    [response.json()] yields it ([None]: the body is not JSON, or is
    [null], so reading [data.result] throws). *)
Record api_body : Type := mkApiBody {
  result : option string;
  conversion_rates : option (list (string * float))
}.

Inductive api_response : Type :=
| FetchRejected
| HttpResponse (ok : bool) (body : option api_body).

Definition fetchAndCacheAllRates (now : Z) (baseCurrency : string)
    (response : api_response) : js bool :=
  try_catch
    (match response with
     | FetchRejected => throw
     | HttpResponse ok body =>
         if negb ok then throw
         else match body with
              | None => throw
              | Some data =>
                  match result data, conversion_rates data with
                  | Some r, Some cr =>
                      if String.eqb r "success" then
                        saveRatesToCache now cr baseCurrency ;;; ret true
                      else throw
                  | _, _ => throw
                  end
              end
     end)
    (ret false).

End CacheManager.

(* ------------------------------------------------------------------ *)
(** ** useNetworkStatus *)

(** The hook's React state after a handler and the re-render it causes;
    [isOnline] starts at [navigator.onLine], [isOfflineMode] at the
    persisted flag.  Every handler returns [undefined] ([tt]). *)
Module NetworkStatus.
Import CacheManager.

Record hook_state : Type := mkHook {
  isOnline : bool;
  isOfflineMode : bool
}.

Definition init (navigator_onLine : bool) : js hook_state :=
  flag <- getOfflineStatus ;;
  ret (mkHook navigator_onLine flag).

Definition handleOnline (h : hook_state) : js (unit * hook_state) :=
  flag <- getOfflineStatus ;;
  ret (tt, mkHook true (if negb flag then false else isOfflineMode h)).

Definition handleOffline (h : hook_state) : js (unit * hook_state) :=
  setOfflineStatus true ;;;
  ret (tt, mkHook false true).

Definition toggleOfflineMode (h : hook_state) : js (unit * hook_state) :=
  let newOfflineMode := negb (isOfflineMode h) in
  setOfflineStatus newOfflineMode ;;;
  ret (tt, mkHook (isOnline h) newOfflineMode).

Definition exitOfflineMode (h : hook_state) : js (unit * hook_state) :=
  if isOnline h then
    setOfflineStatus false ;;;
    ret (tt, mkHook (isOnline h) false)
  else ret (tt, h).

End NetworkStatus.

(* ------------------------------------------------------------------ *)
(** ** Concrete storage states *)

Definition empty_storage : storage := mkStorage None None None false false.

Definition usd_snapshot (t : Z) : cache_data :=
  {| rates := Some [("INR", JNum 83.0); ("EUR", JNum 0.75)]%string;
     baseCurrency := Some "USD"%string;
     timestamp := Some t; lastUpdate := Some t |}.

Definition after {A} (m : js A) (s : storage) : storage :=
  match m s with Ok _ s' => s' | Thrown s' => s' end.

Definition value {A} (m : js A) (s : storage) : option A :=
  match m s with Ok a _ => Some a | Thrown _ => None end.
(** The storage once all three keys are removed. *)
Definition purge (s : storage) : storage :=
  set_offline_item None (set_last_update_item None (set_cache_item None s)).

(** The storage holding [usd_snapshot t] as written by
    [saveRatesToCache] at [t]. *)
Definition stored_usd (t : Z) : storage :=
  mkStorage (Some (CText (usd_snapshot t))) (Some (Z_toString t)) None false false.

(** A snapshot whose [EUR] rate is [0]. *)
Definition zero_rate_storage : storage :=
  mkStorage
    (Some (CText {| rates := Some [("EUR", JNum 0)]%string;
                    baseCurrency := Some "USD"%string;
                    timestamp := Some 1000%Z; lastUpdate := Some 1000%Z |}))
    (Some "1000"%string) None false false.

(** Unparsable text under the snapshot key. *)
Definition corrupt_storage : storage :=
  mkStorage (Some (CUnparsable "{rates:"%string)) (Some "1000"%string)
    (Some "true"%string) false false.

(** Storage the browser refuses to open: every call throws. *)
Definition locked_storage : storage :=
  mkStorage (Some (CText (usd_snapshot 1000))) (Some "1000"%string) None true false.

(** The hook's state while online and not in offline mode. *)
Definition online_hook : NetworkStatus.hook_state := NetworkStatus.mkHook true false.

(* ------------------------------------------------------------------ *)
(** ** Callers: App and OfflineIndicator *)

Module App.
(** [clearHistory]: [setConversionHistory([])], then
    [localStorage.clear()] (not caught), then [sessionStorage.clear()].
    [localStorage.clear()] removes every key, the cache's among them;
    the history key itself and session storage are outside this model. *)
Definition localStorage_clear : js unit := remove purge.

Definition clearHistory {A : Type} : js (list A) :=
  localStorage_clear ;;; ret [].
End App.

Module OfflineIndicator.
Import NetworkStatus.

(** The buttons of the cache-details panel. *)
Inductive button : Type :=
| SwitchToOnline   (* onClick={exitOfflineMode} *)
| TestOfflineMode  (* onClick={toggleOfflineMode} *)
| ClearCache.      (* onClick={handleClearCache} *)

(** The buttons rendered for the hook state and [cacheInfo.hasCache]. *)
Definition control_buttons (h : hook_state) (hasCache : bool) : list button :=
  (if isOnline h && isOfflineMode h then [SwitchToOnline] else []) ++
  (if isOnline h && negb (isOfflineMode h) then [TestOfflineMode] else []) ++
  (if hasCache then [ClearCache] else []).

(** The hook handler behind a button; [confirmed] is the answer to the
    [window.confirm] dialog of [handleClearCache]. *)
Definition click (confirmed : bool) (b : button) (h : hook_state)
    : js (unit * hook_state) :=
  match b with
  | SwitchToOnline => exitOfflineMode h
  | TestOfflineMode => toggleOfflineMode h
  | ClearCache =>
      if confirmed then CacheManager.clearCache ;;; ret (tt, h) else ret (tt, h)
  end.
End OfflineIndicator.

(* ------------------------------------------------------------------ *)
(** ** Facts about loading the snapshot *)

Module LoadFacts.
Import CacheManager.

Ltac unfold_js :=
  unfold getCachedRates, clearCache, try_catch, bind, ret, JSON_parse,
    localStorage.getItem_cache, localStorage.getItem_lastUpdate,
    localStorage.removeItem_cache, localStorage.removeItem_lastUpdate,
    localStorage.removeItem_offline, read, remove in *.

Lemma clearCache_accessible (s : storage) :
  inaccessible s = false -> clearCache s = Ok tt (purge s).
Proof.
  intros H. unfold clearCache, try_catch, bind, localStorage.removeItem_cache,
    localStorage.removeItem_lastUpdate, localStorage.removeItem_offline, remove.
  rewrite H; simpl. rewrite H; simpl. rewrite H. reflexivity.
Qed.

Lemma getCachedRates_inaccessible (now : Z) (s : storage) :
  inaccessible s = true -> getCachedRates now s = Ok None s.
Proof. intros H. unfold_js. rewrite H. reflexivity. Qed.

Lemma getCachedRates_no_last_update (now : Z) (s : storage) :
  str_truthy (last_update_item s) = false -> getCachedRates now s = Ok None s.
Proof.
  destruct s as [ci lu oi [|] oq]; simpl; intros H; unfold_js; simpl;
    [reflexivity|]. rewrite H, orb_true_r. reflexivity.
Qed.

Lemma getCachedRates_unparsable (now : Z) (s : storage) (t : string) :
  cache_item s = Some (CUnparsable t) -> getCachedRates now s = Ok None s.
Proof.
  destruct s as [ci lu oi [|] oq]; simpl; intros H; subst ci; unfold_js;
    simpl; [reflexivity|]. destruct (_ || _); reflexivity.
Qed.

(** A stored JSON object with a present last-update key: it is returned
    as it is, or, when the last-update key is more than [maxAge] old, all
    three keys are purged. *)
Lemma getCachedRates_text (now : Z) (s : storage) (c : cache_data) :
  inaccessible s = false ->
  cache_item s = Some (CText c) ->
  str_truthy (last_update_item s) = true ->
  getCachedRates now s =
    if age_exceeds now (last_update_item s) then Ok None (purge s)
    else Ok (Some c) s.
Proof.
  destruct s as [ci lu oi ia oq]; simpl; intros Ha Hc Hl; subst ia ci.
  unfold_js; simpl. rewrite Hl; simpl.
  destruct (age_exceeds now lu); reflexivity.
Qed.

(** Every outcome of [getCachedRates]: it never throws, and it either
    leaves storage alone or purges it. *)
Lemma getCachedRates_cases (now : Z) (s : storage) :
  getCachedRates now s = Ok None s \/
  (getCachedRates now s = Ok None (purge s) /\
   age_exceeds now (last_update_item s) = true) \/
  exists c, cache_item s = Some (CText c) /\ inaccessible s = false /\
    str_truthy (last_update_item s) = true /\
    age_exceeds now (last_update_item s) = false /\
    getCachedRates now s = Ok (Some c) s.
Proof.
  destruct (inaccessible s) eqn:Ha.
  { left. apply getCachedRates_inaccessible; exact Ha. }
  destruct (str_truthy (last_update_item s)) eqn:Hl.
  2:{ left. apply getCachedRates_no_last_update; exact Hl. }
  destruct (cache_item s) as [[c| |t]|] eqn:Hc.
  - rewrite (getCachedRates_text now s c Ha Hc Hl).
    destruct (age_exceeds now (last_update_item s)) eqn:He;
      [right; left | right; right; eauto 6].
    split; reflexivity.
  - destruct s as [ci lu oi ia oq]; simpl in *; subst ia ci.
    unfold_js; simpl. rewrite Hl; simpl.
    destruct (age_exceeds now lu); [right; left; split | left]; reflexivity.
  - left. apply (getCachedRates_unparsable now s t Hc).
  - left. destruct s as [ci lu oi ia oq]; simpl in *; subst ia ci.
    unfold_js; reflexivity.
Qed.

Lemma rate_truthy_num (v : option jrate) :
  rate_truthy v = true -> exists x, v = Some (JNum x) /\ num_truthy x = true.
Proof. destruct v as [[|x]|]; simpl; try discriminate. eauto. Qed.

Lemma num_truthy_spec (x : float) :
  num_truthy x = true -> PrimFloat.is_zero x = false /\ PrimFloat.is_nan x = false.
Proof.
  unfold num_truthy. destruct (PrimFloat.is_nan x), (PrimFloat.is_zero x);
    simpl; intros H; try discriminate; auto.
Qed.

Lemma parseInt_empty : parseInt EmptyString = None.
Proof. reflexivity. Qed.

(** Every negative number is truthy. *)
Lemma negative_truthy (x : float) : (x <? 0)%float = true -> num_truthy x = true.
Proof.
  unfold num_truthy, PrimFloat.is_nan, PrimFloat.is_zero.
  rewrite !FloatAxioms.eqb_spec, FloatAxioms.ltb_spec.
  change (Prim2SF 0) with (S754_zero false).
  change (Prim2SF zero) with (S754_zero false).
  destruct (Prim2SF x) as [sg|sg| |sg m e]; unfold SFltb, SFeqb, SFcompare;
    try discriminate.
  - destruct sg; reflexivity.
  - destruct sg; [|discriminate]. intros _.
    rewrite Z.compare_refl, Pos.compare_cont_refl. reflexivity.
Qed.

End LoadFacts.

(* ------------------------------------------------------------------ *)
(** ** Rate resolution *)

Module RateResolution.
Import CacheManager LoadFacts.

(** C1 (counterexample).  The code tests [rates[to]] for truthiness, not
    for presence: with [EUR] cached at [0], [getCachedRate("USD","EUR")]
    on a fresh [USD] snapshot does not return [rates["EUR"]] but [null]. *)
Lemma C1_zero_rate_counterexample :
  (exists c r, cache_item zero_rate_storage = Some (CText c) /\
     rates c = Some r /\ baseCurrency c = Some "USD"%string /\
     prop r "EUR" = Some (JNum 0)) /\
  getCachedRate 2000 "USD" "EUR" zero_rate_storage = Ok None zero_rate_storage.
Proof.
  split.
  - do 2 eexists. repeat split; reflexivity.
  - vm_compute. reflexivity.
Qed.

(** C1 (amended).  On a stored, unexpired snapshot with base [B] and
    rates [r], [getCachedRate(from, to)] leaves storage unchanged and
    returns, first match wins: [rates[to]] if [from = B] and [rates[to]]
    is truthy; [1 / rates[from]] if [to = B] and [rates[from]] is truthy;
    [rates[to] / rates[from]] if both are truthy; [null] otherwise.  A
    rate is truthy when it is a number other than [0], [-0] and [NaN]. *)
Theorem getCachedRate_resolution_order (now : Z) (s : storage)
    (c : cache_data) (r : rates_obj) (B fromCurrency toCurrency : string) :
  inaccessible s = false ->
  cache_item s = Some (CText c) ->
  rates c = Some r ->
  baseCurrency c = Some B ->
  str_truthy (last_update_item s) = true ->
  age_exceeds now (last_update_item s) = false ->
  getCachedRate now fromCurrency toCurrency s =
    Ok (if String.eqb B fromCurrency && rate_truthy (prop r toCurrency) then
          Some (rate_num (prop r toCurrency))
        else if String.eqb B toCurrency && rate_truthy (prop r fromCurrency) then
          Some (1 / rate_num (prop r fromCurrency))%float
        else if rate_truthy (prop r fromCurrency)
                && rate_truthy (prop r toCurrency) then
          Some (rate_num (prop r toCurrency) / rate_num (prop r fromCurrency))%float
        else None) s.
Proof.
  intros Ha Hc Hr Hb Hl He.
  unfold getCachedRate, bind, ret.
  rewrite (getCachedRates_text now s c Ha Hc Hl), He.
  unfold resolve, base_is. rewrite Hr, Hb. reflexivity.
Qed.

Lemma getCachedRate_resolution_order_witness :
  getCachedRate 2000 "USD" "INR" (stored_usd 1000) =
    Ok (Some 83%float) (stored_usd 1000).
Proof.
  rewrite (getCachedRate_resolution_order 2000 (stored_usd 1000)
             (usd_snapshot 1000) [("INR", JNum 83.0); ("EUR", JNum 0.75)]%string
             "USD" "USD" "INR");
    vm_compute; reflexivity.
Defined.

(** C9.  When the snapshot's rates have no entry for its own base
    currency [B], [getCachedRate(B, B)] is [null]: none of the three
    cases applies.  This holds whether or not the snapshot is expired. *)
Theorem getCachedRate_base_to_base_absent (now : Z) (s : storage)
    (c : cache_data) (r : rates_obj) (B : string) :
  cache_item s = Some (CText c) ->
  rates c = Some r ->
  baseCurrency c = Some B ->
  prop r B = None ->
  exists s', getCachedRate now B B s = Ok None s'.
Proof.
  intros Hc Hr Hb HB. unfold getCachedRate, bind, ret.
  destruct (getCachedRates_cases now s) as [E | [[E _] | (c' & Hc' & _ & _ & _ & E)]];
    rewrite E; eauto.
  rewrite Hc in Hc'. injection Hc' as <-.
  exists s. unfold resolve, base_is. rewrite Hr, Hb, HB.
  rewrite String.eqb_refl. reflexivity.
Qed.

Lemma getCachedRate_base_to_base_absent_witness :
  exists s', getCachedRate 2000 "USD" "USD" (stored_usd 1000) = Ok None s'.
Proof.
  apply (getCachedRate_base_to_base_absent 2000 (stored_usd 1000)
           (usd_snapshot 1000) [("INR", JNum 83.0); ("EUR", JNum 0.75)]%string
           "USD"); reflexivity.
Defined.

End RateResolution.

(* ------------------------------------------------------------------ *)
(** ** Loading, expiry and corruption *)

Module Expiry.
Import CacheManager LoadFacts.

(** C10.  With a snapshot record present, [getCachedRates] returns
    [null] (touching nothing) when the last-update key is missing; when
    it is present, the expiry decision is [age_exceeds now] of that key
    alone, never the [timestamp] field of the record. *)
Theorem load_needs_last_update_key (now : Z) (s : storage) (c : cache_data) :
  inaccessible s = false ->
  cache_item s = Some (CText c) ->
  (last_update_item s = None -> getCachedRates now s = Ok None s) /\
  (str_truthy (last_update_item s) = true ->
   getCachedRates now s =
     if age_exceeds now (last_update_item s) then Ok None (purge s)
     else Ok (Some c) s).
Proof.
  intros Ha Hc. split.
  - intros Hl. apply getCachedRates_no_last_update. rewrite Hl. reflexivity.
  - intros Hl. exact (getCachedRates_text now s c Ha Hc Hl).
Qed.

Lemma load_needs_last_update_key_witness :
  getCachedRates 2000 (set_last_update_item None (stored_usd 1000)) =
    Ok None (set_last_update_item None (stored_usd 1000)).
Proof.
  apply (load_needs_last_update_key 2000 (set_last_update_item None (stored_usd 1000))
           (usd_snapshot 1000)); reflexivity.
Defined.

(** C4.  A snapshot whose last-update key is more than 24 hours old is
    reported absent by [getCachedRates], which removes the snapshot, the
    last-update key and the offline-mode flag; a later [getCacheInfo]
    reports no cache. *)
Theorem load_expired_purges (now t : Z) (s : storage) (c : cache_data)
    (lu : string) :
  inaccessible s = false ->
  cache_item s = Some (CText c) ->
  last_update_item s = Some lu ->
  parseInt lu = Some t ->
  (now - t > maxAge)%Z ->
  getCachedRates now s = Ok None (purge s) /\
  cache_item (purge s) = None /\ last_update_item (purge s) = None /\
  offline_item (purge s) = None /\
  (forall later later', exists i, getCacheInfo later later' (purge s) = Ok i (purge s) /\
                                  hasCache i = false).
Proof.
  intros Ha Hc Hl Hp Hage.
  assert (Ht : str_truthy (last_update_item s) = true).
  { rewrite Hl. destruct lu as [|a lu']; [discriminate Hp|reflexivity]. }
  assert (He : age_exceeds now (last_update_item s) = true).
  { unfold age_exceeds. rewrite Hl. simpl. rewrite Hp. apply Z.gtb_lt. lia. }
  split; [rewrite (getCachedRates_text now s c Ha Hc Ht), He; reflexivity|].
  repeat split; try reflexivity.
  intros later later'. destruct s as [ci lu0 oi ia oq]; simpl in *; subst ia.
  eexists. split; [reflexivity|reflexivity].
Qed.

Lemma load_expired_purges_witness :
  getCachedRates (1001 + maxAge) (stored_usd 1000) =
    Ok None (purge (stored_usd 1000)).
Proof.
  apply (load_expired_purges (1001 + maxAge) 1000 (stored_usd 1000)
           (usd_snapshot 1000) "1000"); vm_compute; reflexivity.
Defined.

(** C5 (counterexample).  On unparsable snapshot text [getCachedRates]
    returns [null] but removes nothing: the text, the last-update key and
    the offline flag stay in storage. *)
Lemma C5_corrupt_not_purged_counterexample :
  getCachedRates 2000 corrupt_storage = Ok None corrupt_storage /\
  cache_item corrupt_storage <> None /\
  last_update_item corrupt_storage <> None /\
  offline_item corrupt_storage <> None.
Proof. split; [reflexivity|]. split; [discriminate|]. split; discriminate. Qed.

(** C5 (amended).  When the snapshot text is unparsable, [getCachedRates]
    and [getCachedRate] return [null] and leave storage unchanged. *)
Theorem load_corrupt_absent_unchanged (now : Z) (s : storage) (t : string)
    (fromCurrency toCurrency : string) :
  cache_item s = Some (CUnparsable t) ->
  getCachedRates now s = Ok None s /\
  getCachedRate now fromCurrency toCurrency s = Ok None s.
Proof.
  intros Hc. pose proof (getCachedRates_unparsable now s t Hc) as E.
  split; [exact E|]. unfold getCachedRate, bind, ret. rewrite E. reflexivity.
Qed.

Lemma load_corrupt_absent_unchanged_witness :
  getCachedRates 2000 corrupt_storage = Ok None corrupt_storage /\
  getCachedRate 2000 "USD" "EUR" corrupt_storage = Ok None corrupt_storage.
Proof.
  apply (load_corrupt_absent_unchanged 2000 corrupt_storage "{rates:"). reflexivity.
Defined.

End Expiry.

(* ------------------------------------------------------------------ *)
(** ** getCacheInfo, storage failures, invalid rates *)

Module CacheQueries.
Import CacheManager LoadFacts.

(** C3 (code bug).  [getCacheInfo] is not a pure query: it calls
    [getCachedRates], so for an expired snapshot it removes the snapshot,
    the last-update key and the offline-mode flag, and reports no cache. *)
Theorem getCacheInfo_purges_expired (now now' t : Z) (s : storage)
    (c : cache_data) (lu : string) :
  inaccessible s = false ->
  cache_item s = Some (CText c) ->
  last_update_item s = Some lu ->
  parseInt lu = Some t ->
  (now - t > maxAge)%Z ->
  getCacheInfo now now' s =
    Ok {| hasCache := false; info_lastUpdate := Some (Some t);
          info_baseCurrency := None; rateCount := 0; isExpired := true |}
       (purge s) /\
  purge s <> s.
Proof.
  intros Ha Hc Hl Hp Hage.
  assert (Ht : str_truthy (last_update_item s) = true).
  { rewrite Hl. destruct lu as [|a lu']; [discriminate Hp|reflexivity]. }
  assert (He : age_exceeds now (last_update_item s) = true).
  { unfold age_exceeds. rewrite Hl. simpl. rewrite Hp. apply Z.gtb_lt. lia. }
  pose proof (getCachedRates_text now s c Ha Hc Ht) as E. rewrite He in E.
  split.
  - unfold getCacheInfo, bind, localStorage.getItem_lastUpdate, read, ret.
    rewrite Ha. cbn beta iota. rewrite E. rewrite Ht, Hl. simpl. rewrite Hp.
    reflexivity.
  - intros Hs. assert (Hci : cache_item (purge s) = cache_item s) by (rewrite Hs; reflexivity).
    rewrite Hc in Hci. destruct s; discriminate Hci.
Qed.

Lemma getCacheInfo_purges_expired_witness :
  getCacheInfo (1001 + maxAge) (1001 + maxAge) (stored_usd 1000) =
    Ok {| hasCache := false; info_lastUpdate := Some (Some 1000%Z);
          info_baseCurrency := None; rateCount := 0; isExpired := true |}
       (purge (stored_usd 1000)) /\
  purge (stored_usd 1000) <> stored_usd 1000.
Proof.
  apply (getCacheInfo_purges_expired (1001 + maxAge) (1001 + maxAge) 1000
           (stored_usd 1000) (usd_snapshot 1000) "1000"); vm_compute; reflexivity.
Defined.

(** C6 (code bug).  On storage the browser refuses to open, every
    [CacheManager] method catches the error except [getCacheInfo], whose
    first [localStorage.getItem] is outside any [try]. *)
Theorem getCacheInfo_throws_on_locked_storage :
  getCacheInfo 2000 2000 locked_storage = Thrown locked_storage /\
  getCachedRates 2000 locked_storage = Ok None locked_storage /\
  getCachedRate 2000 "USD" "INR" locked_storage = Ok None locked_storage /\
  hasRate 2000 "USD" "INR" locked_storage = Ok false locked_storage /\
  clearCache locked_storage = Ok tt locked_storage /\
  saveRatesToCache 2000 [("INR"%string, 83%float)] "USD" locked_storage =
    Ok tt locked_storage /\
  getOfflineStatus locked_storage = Ok false locked_storage /\
  setOfflineStatus true locked_storage = Ok tt locked_storage.
Proof. repeat split. Qed.

(** C7 (counterexample).  [saveRatesToCache] stores a negative rate as it
    is, and [getCachedRate] returns it as a rate. *)
Lemma C7_negative_rate_counterexample :
  let s := after (saveRatesToCache 1000 [("EUR"%string, (-2)%float)] "USD")
             empty_storage in
  (exists c, cache_item s = Some (CText c) /\
             rates c = Some [("EUR"%string, JNum (-2))]) /\
  getCachedRate 2000 "USD" "EUR" s = Ok (Some (-2)%float) s.
Proof. split; [eexists; split; reflexivity | vm_compute; reflexivity]. Qed.

(** C7 (amended).  For every pair of codes:
    - [saveRatesToCache] performs no validation: on writable storage the
      snapshot it stores holds every given rate as JSON writes it back;
    - whenever [getCachedRate] returns a rate, it is computed from
      stored numbers none of which is zero ([0], [-0]) or [NaN]: the
      direct rate, its inverse, or a quotient of two such numbers; so a
      zero, [NaN], [null] or missing rate is "no rate";
    - a negative rate is used like any other: in an unexpired snapshot
      with base [fromCurrency] it is returned as the direct rate, and
      with base [toCurrency] its inverse is returned. *)
Theorem getCachedRate_divisor_nonzero (now : Z) (fromCurrency toCurrency : string) :
  (forall ratesData base s,
     inaccessible s = false -> over_quota s = false ->
     cache_item (after (saveRatesToCache now ratesData base) s) =
       Some (CText {| rates := Some (map (fun kv => (fst kv,
                                        json_roundtrip_num (snd kv))) ratesData);
                      baseCurrency := Some base;
                      timestamp := Some now;
                      lastUpdate := Some now |})) /\
  (forall s s' y,
     getCachedRate now fromCurrency toCurrency s = Ok (Some y) s' ->
     exists c r, cache_item s = Some (CText c) /\ rates c = Some r /\
     ((exists x, prop r toCurrency = Some (JNum x) /\
                 PrimFloat.is_zero x = false /\ PrimFloat.is_nan x = false /\
                 y = x) \/
      (exists x, prop r fromCurrency = Some (JNum x) /\
                 PrimFloat.is_zero x = false /\ PrimFloat.is_nan x = false /\
                 y = (1 / x)%float) \/
      (exists x z, prop r fromCurrency = Some (JNum x) /\
                   PrimFloat.is_zero x = false /\ PrimFloat.is_nan x = false /\
                   prop r toCurrency = Some (JNum z) /\
                   PrimFloat.is_zero z = false /\ PrimFloat.is_nan z = false /\
                   y = (z / x)%float))) /\
  (forall s c r x,
     inaccessible s = false -> cache_item s = Some (CText c) ->
     str_truthy (last_update_item s) = true ->
     age_exceeds now (last_update_item s) = false ->
     rates c = Some r -> (x <? 0)%float = true ->
     (base_is c fromCurrency = true -> prop r toCurrency = Some (JNum x) ->
      getCachedRate now fromCurrency toCurrency s = Ok (Some x) s) /\
     (base_is c toCurrency = true -> base_is c fromCurrency = false ->
      prop r fromCurrency = Some (JNum x) ->
      getCachedRate now fromCurrency toCurrency s = Ok (Some (1 / x)%float) s)).
Proof.
  split; [|split].
  - intros ratesData base s Ha Hq.
    destruct s as [ci lu oi ia oq]; simpl in Ha, Hq; subst ia oq. reflexivity.
  - unfold getCachedRate, bind, ret. intros s s' y H.
    destruct (getCachedRates_cases now s)
      as [E | [[E _] | (c & Hc & _ & _ & _ & E)]]; rewrite E in H;
      try discriminate H.
    injection H as Hres _. exists c.
    unfold resolve in Hres. destruct (rates c) as [r|]; [|discriminate Hres].
    exists r. split; [exact Hc|]. split; [reflexivity|].
    destruct (base_is c fromCurrency && rate_truthy (prop r toCurrency)) eqn:E1.
    { apply andb_prop in E1 as [_ T].
      destruct (rate_truthy_num _ T) as (x & Hx & Tx).
      destruct (num_truthy_spec x Tx) as [Z0 N0].
      rewrite Hx in Hres. injection Hres as <-. left. eauto. }
    destruct (base_is c toCurrency && rate_truthy (prop r fromCurrency)) eqn:E2.
    { apply andb_prop in E2 as [_ T].
      destruct (rate_truthy_num _ T) as (x & Hx & Tx).
      destruct (num_truthy_spec x Tx) as [Z0 N0].
      rewrite Hx in Hres. injection Hres as <-. right; left. eauto. }
    destruct (rate_truthy (prop r fromCurrency) && rate_truthy (prop r toCurrency))
      eqn:E3; [|discriminate Hres].
    apply andb_prop in E3 as [T1 T2].
    destruct (rate_truthy_num _ T1) as (x & Hx & Tx).
    destruct (rate_truthy_num _ T2) as (z & Hz & Tz).
    destruct (num_truthy_spec x Tx) as [Z0 N0].
    destruct (num_truthy_spec z Tz) as [Z1 N1].
    rewrite Hx, Hz in Hres. injection Hres as <-. right; right.
    exists x, z. auto 10.
  - intros s c r x Ha Hc Ht He Hr Hneg.
    pose proof (negative_truthy x Hneg) as Tx.
    unfold getCachedRate, bind, ret.
    rewrite (getCachedRates_text now s c Ha Hc Ht), He. cbn beta iota.
    unfold resolve. rewrite Hr. split.
    + intros Hb Hp. rewrite Hb, Hp. simpl. rewrite Tx. reflexivity.
    + intros Hb Hb' Hp. rewrite Hb, Hb', Hp. simpl. rewrite Tx. reflexivity.
Qed.

Lemma getCachedRate_divisor_nonzero_witness :
  getCachedRate 2000 "USD" "EUR"
    (after (saveRatesToCache 1000 [("EUR"%string, (-2)%float)] "USD") empty_storage) =
  Ok (Some (-2)%float)
    (after (saveRatesToCache 1000 [("EUR"%string, (-2)%float)] "USD") empty_storage).
Proof.
  destruct (getCachedRate_divisor_nonzero 2000 "USD" "EUR") as (_ & _ & N).
  apply (proj1 (N
      (after (saveRatesToCache 1000 [("EUR"%string, (-2)%float)] "USD") empty_storage)
      {| rates := Some [("EUR"%string, JNum (-2))];
         baseCurrency := Some "USD"%string;
         timestamp := Some 1000%Z; lastUpdate := Some 1000%Z |}
      [("EUR"%string, JNum (-2))] (-2)%float
      eq_refl eq_refl eq_refl eq_refl eq_refl eq_refl)); reflexivity.
Defined.

End CacheQueries.

(* ------------------------------------------------------------------ *)
(** ** The network-status hook *)

Module HookFacts.
Import CacheManager NetworkStatus.

(** C2 (code bug).  [handleOffline] persists the flag as ["true"], and
    [handleOnline] keeps offline mode whenever the persisted flag reads
    ["true"]: after a lost and a restored connection, offline mode stays
    on and the flag stays ["true"], though nobody chose offline mode. *)
Theorem auto_offline_not_recovered (h : hook_state) (s : storage) :
  inaccessible s = false ->
  over_quota s = false ->
  exists h1 s1 h2 s2,
    handleOffline h s = Ok (tt, h1) s1 /\
    isOfflineMode h1 = true /\ offline_item s1 = Some "true"%string /\
    handleOnline h1 s1 = Ok (tt, h2) s2 /\
    isOnline h2 = true /\ isOfflineMode h2 = true /\
    offline_item s2 = Some "true"%string.
Proof.
  destruct s as [ci lu oi ia oq]; simpl; intros Ha Hq; subst ia oq.
  do 4 eexists. repeat split.
Qed.

Lemma auto_offline_not_recovered_witness :
  exists h1 s1 h2 s2,
    handleOffline online_hook empty_storage = Ok (tt, h1) s1 /\
    isOfflineMode h1 = true /\ offline_item s1 = Some "true"%string /\
    handleOnline h1 s1 = Ok (tt, h2) s2 /\
    isOnline h2 = true /\ isOfflineMode h2 = true /\
    offline_item s2 = Some "true"%string.
Proof.
  apply (auto_offline_not_recovered online_hook empty_storage); reflexivity.
Defined.

(** C8 (counterexample).  [exitOfflineMode] returns [undefined] whether
    it applies or not: a rejected call (offline) and an applied call
    (online) hand the caller the same value; the rejection is only
    written to the console. *)
Lemma C8_rejection_not_reported_counterexample :
  exitOfflineMode (mkHook false true) empty_storage =
    Ok (tt, mkHook false true) empty_storage /\
  exitOfflineMode (mkHook true true) empty_storage =
    Ok (tt, mkHook true false) (set_offline_item (Some "false"%string) empty_storage).
Proof. split; reflexivity. Qed.

(** C8 (amended).  While connected, [exitOfflineMode] leaves offline mode
    and persists ["false"] (unless storage refuses the write); while
    disconnected it changes neither the hook's state nor storage.  Either
    way it returns [undefined]. *)
Theorem exitOfflineMode_effect (h : hook_state) (s : storage) :
  exitOfflineMode h s =
    if isOnline h then
      Ok (tt, mkHook true false)
         (if inaccessible s || over_quota s then s
          else set_offline_item (Some "false"%string) s)
    else Ok (tt, h) s.
Proof.
  unfold exitOfflineMode.
  destruct (isOnline h) eqn:E; [|reflexivity].
  unfold setOfflineStatus, try_catch, bind, ret, localStorage.setItem_offline, write.
  destruct (inaccessible s || over_quota s); reflexivity.
Qed.

End HookFacts.

(* ------------------------------------------------------------------ *)
(** ** [parseInt] reads back [Date.now().toString()] *)

Module NumberText.

(** Every character is a decimal digit. *)
Fixpoint all_dec (s : string) : bool :=
  match s with
  | EmptyString => true
  | String c s' =>
      match digit_val 10 c with
      | Some _ => all_dec s'
      | None => false
      end
  end.

Lemma digit_val_char (d : Z) : (0 <= d < 10)%Z -> digit_val 10 (digit_char d) = Some d.
Proof.
  intros Hd.
  assert (d = 0 \/ d = 1 \/ d = 2 \/ d = 3 \/ d = 4 \/ d = 5 \/ d = 6 \/ d = 7 \/
          d = 8 \/ d = 9)%Z as Hc by lia.
  repeat destruct Hc as [-> | Hc]; try reflexivity. subst. reflexivity.
Qed.

Lemma digits_rev_S (f : nat) (n : Z) (acc : string) :
  digits_rev (S f) n acc =
  if (n <? 10)%Z then String (digit_char (n mod 10)) acc
  else digits_rev f (n / 10) (String (digit_char (n mod 10)) acc).
Proof. reflexivity. Qed.

Lemma digits_rev_all_dec (fuel : nat) (n : Z) (acc : string) :
  (0 <= n)%Z -> all_dec acc = true ->
  all_dec (digits_rev fuel n acc) = true /\
  (acc <> EmptyString \/ fuel <> O -> digits_rev fuel n acc <> EmptyString).
Proof.
  revert n acc. induction fuel as [|f IH]; intros n acc Hn Hacc.
  - cbn [digits_rev]. split; [exact Hacc|]. intros [H|H]; [exact H|congruence].
  - rewrite digits_rev_S.
    assert (Hd : digit_val 10 (digit_char (n mod 10)) = Some (n mod 10)%Z)
      by (apply digit_val_char; apply Z.mod_pos_bound; lia).
    assert (Hacc' : all_dec (String (digit_char (n mod 10)) acc) = true)
      by (cbn [all_dec]; rewrite Hd; exact Hacc).
    destruct (n <? 10)%Z.
    + split; [exact Hacc'|]. intros _. discriminate.
    + assert (0 <= n / 10)%Z by (apply Z.div_pos; lia).
      destruct (IH (n / 10)%Z _ H Hacc') as [A B].
      split; [exact A|]. intros _. apply B. left. discriminate.
Qed.

Lemma digits_rev_parse (fuel : nat) :
  forall (n : Z) (acc : string) (a : Z) (seen : bool),
  (0 <= n < 10 ^ Z.of_nat (S fuel))%Z ->
  exists k : nat,
    digits_acc 10 a seen (digits_rev (S fuel) n acc) =
    digits_acc 10 (a * 10 ^ Z.of_nat k + n)%Z true acc.
Proof.
  induction fuel as [|f IH]; intros n acc a seen Hn.
  - simpl in Hn. exists 1%nat. rewrite digits_rev_S.
    replace (n <? 10)%Z with true by (symmetry; apply Z.ltb_lt; lia).
    cbn [digits_acc]. rewrite digit_val_char by (apply Z.mod_pos_bound; lia).
    rewrite Z.mod_small by lia. f_equal; lia.
  - rewrite digits_rev_S.
    destruct (n <? 10)%Z eqn:Hlt.
    + apply Z.ltb_lt in Hlt. exists 1%nat. cbn [digits_acc].
      rewrite digit_val_char by (apply Z.mod_pos_bound; lia).
      rewrite Z.mod_small by lia. f_equal; lia.
    + apply Z.ltb_ge in Hlt.
      assert (Hb : (0 <= n / 10 < 10 ^ Z.of_nat (S f))%Z).
      { split; [apply Z.div_pos; lia|].
        apply Z.div_lt_upper_bound; [lia|].
        rewrite <- Z.pow_succ_r by lia.
        replace (Z.succ (Z.of_nat (S f))) with (Z.of_nat (S (S f))) by lia. lia. }
      destruct (IH (n / 10)%Z (String (digit_char (n mod 10)) acc) a seen Hb)
        as [k Hk].
      rewrite Hk. exists (S k). cbn [digits_acc].
      rewrite digit_val_char by (apply Z.mod_pos_bound; lia).
      f_equal.
      rewrite Nat2Z.inj_succ, Z.pow_succ_r by lia.
      pose proof (Z.div_mod n 10 ltac:(lia)). nia.
Qed.

Lemma parseInt_digit_string (c : ascii) (s : string) (d : Z) :
  digit_val 10 c = Some d -> all_dec s = true ->
  parseInt (String c s) = digits_acc 10 0 false (String c s).
Proof.
  intros Hc Hs.
  destruct c as [[] [] [] [] [] [] [] []]; vm_compute in Hc;
    try discriminate Hc; try reflexivity.
  (* the digit 0, which may start a hexadecimal prefix *)
  destruct s as [|x s']; [reflexivity|].
  simpl in Hs. destruct (digit_val 10 x) as [dx|] eqn:Hx; [|discriminate Hs].
  assert (Hxx : (x =? "x")%char = false).
  { destruct (Ascii.eqb_spec x "x") as [->|]; [discriminate Hx|reflexivity]. }
  assert (HxX : (x =? "X")%char = false).
  { destruct (Ascii.eqb_spec x "X") as [->|]; [discriminate Hx|reflexivity]. }
  unfold parseInt. simpl. unfold parse_unsigned. rewrite Hxx, HxX. reflexivity.
Qed.

(** [parseInt(String(t))] is [t] for every non-negative integer [t]. *)
Lemma parseInt_Z_toString (t : Z) : (0 <= t)%Z -> parseInt (Z_toString t) = Some t.
Proof.
  intros Ht. unfold Z_toString.
  rewrite Z.abs_eq by lia.
  replace (t <? 0)%Z with false by (symmetry; apply Z.ltb_ge; lia).
  set (fuel := Z.to_nat (Z.log2 t)).
  assert (Hb : (0 <= t < 10 ^ Z.of_nat (S fuel))%Z).
  { split; [lia|]. subst fuel.
    rewrite Nat2Z.inj_succ, Z2Nat.id by apply Z.log2_nonneg.
    destruct (Z.eq_dec t 0) as [->|Hne]; [simpl; lia|].
    apply Z.lt_le_trans with (2 ^ Z.succ (Z.log2 t))%Z.
    - apply Z.log2_spec; lia.
    - apply Z.pow_le_mono_l. split; [lia|lia]. }
  destruct (digits_rev_all_dec (S fuel) t EmptyString ltac:(lia) eq_refl) as [A B].
  assert (Hf : S fuel <> O) by discriminate.
  specialize (B (or_intror Hf)).
  destruct (digits_rev (S fuel) t EmptyString) as [|c s] eqn:E; [contradiction|].
  simpl in A. destruct (digit_val 10 c) as [d|] eqn:Hc; [|discriminate A].
  rewrite (parseInt_digit_string c s d Hc A), <- E.
  destruct (digits_rev_parse fuel t EmptyString 0 false Hb) as [k ->].
  reflexivity.
Qed.

End NumberText.

(* ------------------------------------------------------------------ *)
(** ** Further properties of the cache *)

Module CacheExtras.
Import CacheManager LoadFacts NumberText.

(** The snapshot [saveRatesToCache now ratesData base] writes. *)
Lemma saveRatesToCache_writes (now : Z) (ratesData : list (string * float))
    (base : string) (s : storage) :
  inaccessible s = false -> over_quota s = false ->
  saveRatesToCache now ratesData base s =
    Ok tt (set_last_update_item (Some (Z_toString now))
             (set_cache_item
                (Some (CText {| rates := Some (map (fun kv => (fst kv,
                                  json_roundtrip_num (snd kv))) ratesData);
                                baseCurrency := Some base;
                                timestamp := Some now;
                                lastUpdate := Some now |})) s)).
Proof.
  destruct s as [ci lu oi ia oq]; simpl; intros Ha Hq; subst ia oq. reflexivity.
Qed.

Lemma Z_toString_truthy (now : Z) :
  (0 <= now)%Z -> str_truthy (Some (Z_toString now)) = true.
Proof.
  intros H. pose proof (parseInt_Z_toString now H) as P.
  destruct (Z_toString now); [discriminate P|reflexivity].
Qed.

Lemma age_exceeds_saved (now later : Z) :
  (0 <= now)%Z ->
  age_exceeds later (Some (Z_toString now)) = (later - now >? maxAge)%Z.
Proof.
  intros H. unfold age_exceeds. simpl. rewrite (parseInt_Z_toString now H).
  reflexivity.
Qed.



(** Status after a save: within [maxAge], [getCacheInfo] reports a cache,
    the save time, the base currency (unless it is the empty string),
    the number of distinct codes saved, and [isExpired = false]; its two
    clock reads [later <= later'] are both within [maxAge]. *)
Theorem save_then_getCacheInfo (now later later' : Z)
    (ratesData : list (string * float)) (base : string) (s : storage) :
  (0 <= now)%Z -> inaccessible s = false -> over_quota s = false ->
  (later <= later')%Z -> (later' - now <= maxAge)%Z ->
  exists s1,
    saveRatesToCache now ratesData base s = Ok tt s1 /\
    getCacheInfo later later' s1 =
      Ok {| hasCache := true;
            info_lastUpdate := Some (Some now);
            info_baseCurrency := if String.eqb base EmptyString then None
                                 else Some base;
            rateCount := count_keys (map (fun kv => (fst kv,
                                  json_roundtrip_num (snd kv))) ratesData);
            isExpired := false |} s1.
Proof.
  intros Hn Ha Hq Hll Hl.
  pose proof (saveRatesToCache_writes now ratesData base s Ha Hq) as W.
  eexists. split; [exact W|].
  assert (Hgt : (later - now >? maxAge)%Z = false)
    by (rewrite Z.gtb_ltb; apply Z.ltb_ge; lia).
  assert (Hgt' : (later' - now >? maxAge)%Z = false)
    by (rewrite Z.gtb_ltb; apply Z.ltb_ge; lia).
  match goal with |- getCacheInfo _ _ ?s1 = _ =>
    assert (Ha1 : inaccessible s1 = false) by exact Ha;
    pose proof (getCachedRates_text later s1 _ Ha1 eq_refl
                  (Z_toString_truthy now Hn)) as E end.
  unfold getCacheInfo, bind, localStorage.getItem_lastUpdate, read, ret.
  rewrite Ha1. cbn beta iota. rewrite E.
  simpl last_update_item. rewrite !age_exceeds_saved by exact Hn. rewrite Hgt, Hgt'.
  rewrite Z_toString_truthy by exact Hn.
  simpl. rewrite (parseInt_Z_toString now Hn). reflexivity.
Qed.

Lemma save_then_getCacheInfo_witness :
  exists s1,
    saveRatesToCache 1000 [("INR"%string, 83%float); ("INR"%string, 84%float)]
      "USD" empty_storage = Ok tt s1 /\
    getCacheInfo 2000 3000 s1 =
      Ok {| hasCache := true;
            info_lastUpdate := Some (Some 1000%Z);
            info_baseCurrency := if String.eqb "USD" EmptyString then None
                                 else Some "USD"%string;
            rateCount := count_keys (map (fun kv => (fst kv,
                                  json_roundtrip_num (snd kv)))
                                  [("INR"%string, 83%float); ("INR"%string, 84%float)]);
            isExpired := false |} s1.
Proof. apply save_then_getCacheInfo; try reflexivity; vm_compute; discriminate. Defined.

(** [getCacheInfo] reads the clock twice.  When the 24-hour mark of
    the snapshot falls between the read inside [getCachedRates] and the
    read for [isExpired], it reports a present cache that is expired,
    and storage is unchanged. *)
Theorem getCacheInfo_expiry_between_reads (now now' t : Z) (s : storage)
    (c : cache_data) (lu : string) :
  inaccessible s = false ->
  cache_item s = Some (CText c) ->
  last_update_item s = Some lu ->
  parseInt lu = Some t ->
  (now - t <= maxAge)%Z -> (now' - t > maxAge)%Z ->
  exists i, getCacheInfo now now' s = Ok i s /\
            hasCache i = true /\ isExpired i = true.
Proof.
  intros Ha Hc Hl Hp H1 H2.
  assert (Ht : str_truthy (last_update_item s) = true).
  { rewrite Hl. destruct lu as [|a lu']; [discriminate Hp|reflexivity]. }
  assert (He : age_exceeds now (last_update_item s) = false).
  { unfold age_exceeds. rewrite Hl. simpl. rewrite Hp.
    rewrite Z.gtb_ltb; apply Z.ltb_ge; lia. }
  assert (He' : age_exceeds now' (last_update_item s) = true).
  { unfold age_exceeds. rewrite Hl. simpl. rewrite Hp. apply Z.gtb_lt. lia. }
  pose proof (getCachedRates_text now s c Ha Hc Ht) as E. rewrite He in E.
  unfold getCacheInfo, bind, localStorage.getItem_lastUpdate, read, ret.
  rewrite Ha. cbn beta iota. rewrite E. rewrite He'.
  eexists. split; [reflexivity|]. split; reflexivity.
Qed.

Lemma getCacheInfo_expiry_between_reads_witness :
  exists i, getCacheInfo (1000 + maxAge) (1001 + maxAge) (stored_usd 1000) =
              Ok i (stored_usd 1000) /\
            hasCache i = true /\ isExpired i = true.
Proof.
  apply (getCacheInfo_expiry_between_reads (1000 + maxAge) (1001 + maxAge) 1000
           (stored_usd 1000) (usd_snapshot 1000) "1000"); first [reflexivity | unfold maxAge; lia].
Defined.

(** [clearCache] on accessible storage removes all three keys, a second
    call changes nothing, and afterwards there is no snapshot, no cache
    status and the offline-mode flag reads [false]. *)
Theorem clearCache_then_queries (now now' : Z) (s : storage) :
  inaccessible s = false ->
  clearCache s = Ok tt (purge s) /\
  clearCache (purge s) = Ok tt (purge s) /\
  getCachedRates now (purge s) = Ok None (purge s) /\
  getOfflineStatus (purge s) = Ok false (purge s) /\
  (exists i, getCacheInfo now now' (purge s) = Ok i (purge s) /\
             hasCache i = false /\ isExpired i = true /\ rateCount i = 0%nat).
Proof.
  intros Ha. split; [exact (clearCache_accessible s Ha)|].
  destruct s as [ci lu oi ia oq]; simpl in Ha; subst ia.
  split; [reflexivity|]. split; [reflexivity|]. split; [reflexivity|].
  eexists. split; [reflexivity|]. auto.
Qed.

Lemma clearCache_then_queries_witness :
  clearCache (stored_usd 1000) = Ok tt (purge (stored_usd 1000)) /\
  clearCache (purge (stored_usd 1000)) = Ok tt (purge (stored_usd 1000)) /\
  getCachedRates 2000 (purge (stored_usd 1000)) = Ok None (purge (stored_usd 1000)) /\
  getOfflineStatus (purge (stored_usd 1000)) = Ok false (purge (stored_usd 1000)) /\
  (exists i, getCacheInfo 2000 2000 (purge (stored_usd 1000)) =
               Ok i (purge (stored_usd 1000)) /\
             hasCache i = false /\ isExpired i = true /\ rateCount i = 0%nat).
Proof. apply clearCache_then_queries. reflexivity. Defined.

(** [hasRate] is symmetric: a pair is available from the cache exactly
    when the swapped pair is, in every storage state. *)
Theorem hasRate_symmetric (now : Z) (fromCurrency toCurrency : string)
    (s : storage) :
  hasRate now fromCurrency toCurrency s = hasRate now toCurrency fromCurrency s.
Proof.
  unfold hasRate, getCachedRate, bind, ret.
  destruct (getCachedRates now s) as [cache s'|s']; [|reflexivity].
  f_equal. unfold resolve.
  destruct cache as [c|]; [|reflexivity].
  destruct (rates c) as [r|]; [|reflexivity].
  destruct (base_is c fromCurrency), (base_is c toCurrency),
    (rate_truthy (prop r fromCurrency)), (rate_truthy (prop r toCurrency));
    reflexivity.
Qed.

(** When the last-update key holds text with no leading digits,
    [parseInt] gives [NaN], the age comparison is false, and the snapshot
    never expires: it is returned at every time. *)
Theorem nan_last_update_never_expires (now : Z) (s : storage)
    (c : cache_data) (lu : string) :
  inaccessible s = false ->
  cache_item s = Some (CText c) ->
  last_update_item s = Some lu ->
  lu <> EmptyString ->
  parseInt lu = None ->
  getCachedRates now s = Ok (Some c) s.
Proof.
  intros Ha Hc Hl Hne Hp.
  rewrite (getCachedRates_text now s c Ha Hc).
  - unfold age_exceeds. rewrite Hl. simpl. rewrite Hp. reflexivity.
  - rewrite Hl. simpl. destruct (String.eqb_spec lu EmptyString); [contradiction|reflexivity].
Qed.

Lemma nan_last_update_never_expires_witness :
  getCachedRates (1000 + 365 * maxAge)
    (set_last_update_item (Some "never"%string) (stored_usd 1000)) =
  Ok (Some (usd_snapshot 1000))
    (set_last_update_item (Some "never"%string) (stored_usd 1000)).
Proof.
  apply (nan_last_update_never_expires _ _ _ "never");
    try reflexivity; discriminate.
Defined.

End CacheExtras.

(* ------------------------------------------------------------------ *)
(** ** Error containment, the offline flag and the fetch helper *)

Module CacheErrors.
Import CacheManager LoadFacts.

Lemma try_catch_ret_returns {A} (m : js A) (x : A) (s : storage) :
  exists a s', try_catch m (ret x) s = Ok a s'.
Proof. unfold try_catch, ret. destruct (m s); eauto. Qed.

(** Every [CacheManager] method other than [getCacheInfo] returns
    normally in every storage state, including storage that throws on
    every call or on every write; [getCacheInfo] returns normally exactly
    when storage is accessible. *)
Theorem cache_methods_never_throw (now now' : Z) (s : storage)
    (fromCurrency toCurrency base : string)
    (ratesData : list (string * float)) (isOffline : bool) :
  (exists a s', getCachedRates now s = Ok a s') /\
  (exists a s', getCachedRate now fromCurrency toCurrency s = Ok a s') /\
  (exists a s', hasRate now fromCurrency toCurrency s = Ok a s') /\
  (exists a s', clearCache s = Ok a s') /\
  (exists a s', saveRatesToCache now ratesData base s = Ok a s') /\
  (exists a s', setOfflineStatus isOffline s = Ok a s') /\
  (exists a s', getOfflineStatus s = Ok a s') /\
  ((exists i s', getCacheInfo now now' s = Ok i s') <-> inaccessible s = false).
Proof.
  assert (L : exists a s', getCachedRates now s = Ok a s')
    by apply try_catch_ret_returns.
  destruct L as (a & s' & E).
  split; [eauto|].
  split; [unfold getCachedRate, bind, ret; rewrite E; eauto|].
  split; [unfold hasRate, getCachedRate, bind, ret; rewrite E; eauto|].
  split; [apply try_catch_ret_returns|].
  split; [apply try_catch_ret_returns|].
  split; [apply try_catch_ret_returns|].
  split; [apply try_catch_ret_returns|].
  unfold getCacheInfo, bind, localStorage.getItem_lastUpdate, read, ret.
  destruct (inaccessible s) eqn:Ha.
  - split; [intros (i & s'' & H); discriminate H | intros H; discriminate H].
  - rewrite E. split; [reflexivity | eauto].
Qed.

(** The persisted offline-mode flag reads back what was written, on
    storage that accepts writes. *)
Theorem offline_status_roundtrip (isOffline : bool) (s : storage) :
  inaccessible s = false -> over_quota s = false ->
  exists s', setOfflineStatus isOffline s = Ok tt s' /\
             getOfflineStatus s' = Ok isOffline s' /\
             cache_item s' = cache_item s /\
             last_update_item s' = last_update_item s.
Proof.
  destruct s as [ci lu oi ia oq]; simpl; intros Ha Hq; subst ia oq.
  destruct isOffline; eexists; repeat split.
Qed.

Lemma offline_status_roundtrip_witness :
  exists s', setOfflineStatus true (stored_usd 1000) = Ok tt s' /\
             getOfflineStatus s' = Ok true s' /\
             cache_item s' = cache_item (stored_usd 1000) /\
             last_update_item s' = last_update_item (stored_usd 1000).
Proof. apply offline_status_roundtrip; reflexivity. Defined.

(** [fetchAndCacheAllRates] returns [true] and saves the table exactly
    when the response is ok with [result = 'success'] and
    [conversion_rates] present; for every other answer (rejected fetch,
    HTTP error, unreadable body, other result) it returns [false] and
    storage is unchanged. *)
Theorem fetchAndCacheAllRates_outcome (now : Z) (base : string)
    (response : api_response) (s : storage) :
  (forall cr, response = HttpResponse true (Some (mkApiBody (Some "success"%string) (Some cr))) ->
     fetchAndCacheAllRates now base response s =
       Ok true (after (saveRatesToCache now cr base) s)) /\
  ((forall cr, response <> HttpResponse true (Some (mkApiBody (Some "success"%string) (Some cr)))) ->
     fetchAndCacheAllRates now base response s = Ok false s).
Proof.
  split.
  - intros cr ->.
    assert (exists u s', saveRatesToCache now cr base s = Ok u s') as (u & s' & E)
      by apply try_catch_ret_returns.
    unfold fetchAndCacheAllRates, after.
    cbv beta iota delta [result conversion_rates]. rewrite String.eqb_refl.
    unfold try_catch at 1. unfold bind. cbn [negb]. rewrite E. reflexivity.
  - intros Hn. unfold fetchAndCacheAllRates, try_catch, throw, ret.
    destruct response as [|[|] [[r cr]|]]; try reflexivity.
    simpl. destruct r as [r|]; [|reflexivity]. destruct cr as [cr|]; [|reflexivity].
    destruct (String.eqb_spec r "success") as [->|]; [|reflexivity].
    exfalso. exact (Hn cr eq_refl).
Qed.

(** On storage that is full, a successful answer still makes
    [fetchAndCacheAllRates] return [true], though [saveRatesToCache]
    swallowed the write error and nothing was cached. *)
Theorem fetchAndCacheAllRates_true_without_caching (now : Z) (base : string)
    (cr : list (string * float)) (s : storage) :
  over_quota s = true ->
  fetchAndCacheAllRates now base
    (HttpResponse true (Some (mkApiBody (Some "success"%string) (Some cr)))) s =
  Ok true s.
Proof.
  intros Hq. unfold fetchAndCacheAllRates, saveRatesToCache, try_catch, bind, ret,
    localStorage.setItem_cache, write.
  simpl. rewrite Hq, orb_true_r. reflexivity.
Qed.

Lemma fetchAndCacheAllRates_true_without_caching_witness :
  fetchAndCacheAllRates 1000 "USD"
    (HttpResponse true (Some (mkApiBody (Some "success"%string)
                                         (Some [("INR"%string, 83%float)]))))
    (mkStorage None None None false true) =
  Ok true (mkStorage None None None false true).
Proof. apply fetchAndCacheAllRates_true_without_caching. reflexivity. Defined.

End CacheErrors.

(* ------------------------------------------------------------------ *)
(** ** The hook and its callers *)

Module HookExtras.
Import CacheManager NetworkStatus.

(** [toggleOfflineMode] flips offline mode, keeps [isOnline], and
    persists the new value (read back by [getOfflineStatus]); toggling
    twice restores the hook state, after which the flag reads the
    hook's original mode (whatever was stored before). *)
Theorem toggleOfflineMode_involutive (h : hook_state) (s : storage) :
  inaccessible s = false -> over_quota s = false ->
  exists h1 s1 s2,
    toggleOfflineMode h s = Ok (tt, h1) s1 /\
    isOfflineMode h1 = negb (isOfflineMode h) /\ isOnline h1 = isOnline h /\
    getOfflineStatus s1 = Ok (isOfflineMode h1) s1 /\
    toggleOfflineMode h1 s1 = Ok (tt, h) s2 /\
    getOfflineStatus s2 = Ok (isOfflineMode h) s2.
Proof.
  destruct s as [ci lu oi ia oq]; simpl; intros Ha Hq; subst ia oq.
  destruct h as [on off]. destruct off; do 3 eexists; repeat split.
Qed.

Lemma toggleOfflineMode_involutive_witness :
  exists h1 s1 s2,
    toggleOfflineMode online_hook empty_storage = Ok (tt, h1) s1 /\
    isOfflineMode h1 = negb (isOfflineMode online_hook) /\
    isOnline h1 = isOnline online_hook /\
    getOfflineStatus s1 = Ok (isOfflineMode h1) s1 /\
    toggleOfflineMode h1 s1 = Ok (tt, online_hook) s2 /\
    getOfflineStatus s2 = Ok (isOfflineMode online_hook) s2.
Proof. apply toggleOfflineMode_involutive; reflexivity. Defined.

(** [handleOnline] never writes storage and never turns offline mode on:
    it sets [isOnline], and keeps offline mode only when it was on and
    the persisted flag reads [true]. *)
Theorem handleOnline_effect (h : hook_state) (s : storage) :
  match getOfflineStatus s with
  | Ok flag s' =>
      s' = s /\ handleOnline h s = Ok (tt, mkHook true (isOfflineMode h && flag)) s
  | Thrown _ => False
  end.
Proof.
  unfold handleOnline, getOfflineStatus, try_catch, bind, ret,
    localStorage.getItem_offline, read.
  destruct (inaccessible s); simpl.
  - split; [reflexivity|]. destruct (isOfflineMode h); reflexivity.
  - split; [reflexivity|].
    destruct (match offline_item s with
              | Some t => String.eqb t "true" | None => false end);
      destruct (isOfflineMode h); reflexivity.
Qed.

(** [App.clearHistory] also empties the rate cache: on accessible storage
    [localStorage.clear()] removes the snapshot, the last-update key and
    the offline-mode flag, so no cached rate remains and the flag reads
    [false]; on inaccessible storage the error is not caught. *)
Theorem clearHistory_clears_rate_cache {A : Type} (now : Z) (s : storage)
    (fromCurrency toCurrency : string) :
  (inaccessible s = false ->
   @App.clearHistory A s = Ok [] (purge s) /\
   getCachedRate now fromCurrency toCurrency (purge s) = Ok None (purge s) /\
   getOfflineStatus (purge s) = Ok false (purge s)) /\
  (inaccessible s = true -> @App.clearHistory A s = Thrown s).
Proof.
  unfold App.clearHistory, App.localStorage_clear, remove, bind, ret.
  destruct s as [ci lu oi [|] oq]; simpl.
  - split; [intros H; discriminate H | reflexivity].
  - split; [|intros H; discriminate H]. intros _. repeat split.
Qed.

Lemma clearHistory_clears_rate_cache_witness :
  @App.clearHistory nat (stored_usd 5) = Ok [] (purge (stored_usd 5)) /\
  getCachedRate 6 "USD" "INR" (purge (stored_usd 5)) = Ok None (purge (stored_usd 5)) /\
  getOfflineStatus (purge (stored_usd 5)) = Ok false (purge (stored_usd 5)).
Proof.
  apply (proj1 (@clearHistory_clears_rate_cache nat 6 (stored_usd 5) "USD" "INR")).
  reflexivity.
Defined.

(** Each offline-mode button [OfflineIndicator] renders takes effect
    when clicked, on any storage: "Switch to Online" leaves offline mode
    and "Test Offline Mode" enters it, both while online. *)
Theorem shown_mode_buttons_take_effect (h : hook_state) (hasCache confirmed : bool)
    (b : OfflineIndicator.button) (s : storage) :
  In b (OfflineIndicator.control_buttons h hasCache) ->
  b <> OfflineIndicator.ClearCache ->
  exists h' s', OfflineIndicator.click confirmed b h s = Ok (tt, h') s' /\
                isOnline h' = true /\ isOfflineMode h' = negb (isOfflineMode h).
Proof.
  intros Hin Hb.
  unfold OfflineIndicator.click, exitOfflineMode, toggleOfflineMode,
    setOfflineStatus, try_catch, bind, ret.
  destruct h as [[|] [|]], hasCache; simpl in Hin;
    repeat (destruct Hin as [<- | Hin]; [ | ]); try contradiction;
    try (exfalso; apply Hb; reflexivity);
    simpl; destruct (localStorage.setItem_offline _ s); eauto.
Qed.

Lemma shown_mode_buttons_take_effect_witness :
  exists h' s', OfflineIndicator.click true OfflineIndicator.TestOfflineMode online_hook
                  empty_storage = Ok (tt, h') s' /\
                isOnline h' = true /\ isOfflineMode h' = negb (isOfflineMode online_hook).
Proof.
  apply (shown_mode_buttons_take_effect online_hook false true); [simpl; auto | discriminate].
Defined.

End HookExtras.
